(** * Cashflow stress testing: the formulas, the grids and the sweep

    A shallow embedding of [src/model.py] and [src/simulate.py], and of the
    two array helpers of [src/plots.py].

    Numbers.  The program computes on Python floats, which are IEEE 754
    binary64 numbers.  The development has two layers.

    In the exact layer a float is an exact rational ([Q]): every
    arithmetic operation is the exact one, and two floats are the same
    number when they are equal as rationals ([==]).  This is the
    arithmetic of the program with rounding error, overflow, infinities
    and NaN left out; the tolerance constants of the source (1e-12, 1e-8)
    and its decimal rounding are kept as they are written.  The layer
    carries the statements that rounding does not change: which branch is
    taken and which error is raised, how the configuration is read, and
    orderings and bounds.

    In the layer [Binary64] the formulas, [_frange] and the sweep are
    embedded on binary64 numbers themselves (Rocq's primitive floats, whose
    operations are those of IEEE 754 as [SpecFloat] specifies them).
    Statements that depend on the computed value (a test on a computed
    product, whether two computed numbers are equal, whether a grid repeats
    a value) are made in this layer.

    Failure.  A Python exception is a value of [exn]; a computation that
    may raise returns a [result]. *)

From Stdlib Require Import QArith Qround Qabs ZArith List String Bool Lia Lra Psatz.
From Stdlib Require Import SetoidList Permutation.
From Stdlib Require Import Floats.
From Stdlib Require Uint63.
Import ListNotations.

Open Scope Q_scope.

(** ** Configuration values

    What [yaml.safe_load] hands to the program: numbers, strings, null and
    mappings with string keys.  A mapping keeps its keys in insertion
    order, as a Python dict does. *)

#[local] Set Warnings "-register-all".
#[local] Set Warnings "-inexact-float".

Inductive pyval : Type :=
| PNum (q : Q)
| PStr (s : string)
| PNone
| PDict (d : list (string * pyval)).

(** ** Exceptions and the result monad

    The text of an f-string is kept as its pieces: the literal parts, the
    values formatted into it and, for [list(d.keys())], the key list. *)

Inductive fragment : Type :=
| Lit (s : string)
| Fmt (v : pyval)
| FmtKeys (ks : list string).

Inductive exn : Type :=
| ValueError (msg : list fragment)
| KeyError (key : string)
| TypeError
| AttributeError
| ZeroDivisionError
| OverflowError.

Inductive result (A : Type) : Type :=
| Ok (a : A)
| Raise (e : exn).

Arguments Ok {A} a.
Arguments Raise {A} e.

Definition bind {A B : Type} (m : result A) (k : A -> result B) : result B :=
  match m with
  | Ok a => k a
  | Raise e => Raise e
  end.

Notation "x <- m ;; k" := (bind m (fun x => k))
  (at level 61, m at next level, right associativity).

(** Python's [a / b] on floats. *)
Definition py_div (a b : Q) : result Q :=
  if Qeq_bool b 0 then Raise ZeroDivisionError else Ok (a / b).

(** Comparisons of the source, as booleans. *)
Definition Qleb (a b : Q) : bool := Qle_bool a b.
Definition Qltb (a b : Q) : bool := negb (Qle_bool b a).

(** ** model.py: the financial formulas *)

Definition net_operating_income (revenue operating_cost_ratio : Q) : Q :=
  revenue * (1 - operating_cost_ratio).

Definition interest_cost (interest_rate debt_balance : Q) : Q :=
  interest_rate * debt_balance.

Definition net_cashflow (revenue operating_cost_ratio interest_rate debt_balance : Q) : Q :=
  let operating_costs := revenue * operating_cost_ratio in
  revenue - operating_costs - interest_cost interest_rate debt_balance.

Definition dscr_msg : list fragment := [Lit "Interest cost must be positive for DSCR."].

Definition dscr (revenue operating_cost_ratio interest_rate debt_balance : Q) : result Q :=
  let interest := interest_cost interest_rate debt_balance in
  if Qleb interest 0 then Raise (ValueError dscr_msg)
  else py_div (revenue * (1 - operating_cost_ratio)) interest.

Definition analytical_break_even_occupancy
    (interest_rate operating_cost_ratio debt_balance base_rent : Q) : result Q :=
  py_div (interest_rate * debt_balance) ((1 - operating_cost_ratio) * base_rent).

Definition ltv_msg : list fragment := [Lit "ltv must be > 0"].

Definition theta_from_yield_ltv (gross_yield ltv : Q) : result Q :=
  if Qleb ltv 0 then Raise (ValueError ltv_msg)
  else py_div gross_yield ltv.

(** ** model.py: stress grid generation *)

(** [np.arange(n, dtype=float)] for an integer [n]: 0, 1, ..., n-1, and
    nothing when [n <= 0]. *)
Definition np_arange (n : Z) : list Q :=
  map (fun i => inject_Z (Z.of_nat i)) (seq 0 (Z.to_nat n)).

(** [np.rint]: the nearest integer, a tie going to the even one. *)
Definition rint (x : Q) : Z :=
  let f := Qfloor x in
  match Qcompare (x - inject_Z f) (1 # 2) with
  | Lt => f
  | Gt => (f + 1)%Z
  | Eq => if Z.even f then f else (f + 1)%Z
  end.

Definition pow10 (decimals : nat) : Q := inject_Z (10 ^ Z.of_nat decimals).

(** [np.round(x, decimals)] for [decimals >= 0]. *)
Definition np_round (decimals : nat) (x : Q) : Q :=
  inject_Z (rint (x * pow10 decimals)) / pow10 decimals.

(** [np.unique]: the sorted distinct values. *)
Fixpoint insert_unique (x : Q) (l : list Q) : list Q :=
  match l with
  | [] => [x]
  | y :: t =>
      match Qcompare x y with
      | Lt => x :: y :: t
      | Eq => y :: t
      | Gt => y :: insert_unique x t
      end
  end.

Definition np_unique (l : list Q) : list Q := fold_right insert_unique [] l.

(** The tolerances [1e-12] and [1e-8] of the source. *)
Abbreviation tol12 := (1 # 1000000000000) (only parsing).
Abbreviation tol8 := (1 # 100000000) (only parsing).

Definition step_msg : list fragment := [Lit "step must be > 0"].

(** The number of points both range generators ask for:
    [int(np.floor((stop - start) / step + 1e-12)) + 1]. *)
Definition n_points (start stop step : Q) : result Z :=
  x <- py_div (stop - start) step ;;
  Ok (Qfloor (x + tol12) + 1)%Z.

(** [vals[-1]] of a non-empty array. *)
Definition last_val (vals : list Q) : Q := last vals 0.

Definition _inclusive_arange (start stop step : Q) (decimals : nat) : result (list Q) :=
  if Qleb step 0 then Raise (ValueError step_msg)
  else
    n <- n_points start stop step ;;
    let vals := map (fun i => start + step * i) (np_arange n) in
    let vals := filter (fun v => Qleb v (stop + tol12)) vals in
    let vals := map (np_round decimals) vals in
    let vals := match vals with
                | [] => [np_round decimals start]
                | _ => vals
                end in
    let vals :=
      if Qltb tol8 (Qabs (last_val vals - stop)) && Qleb (last_val vals + tol8) stop
      then vals ++ [np_round decimals stop]
      else vals in
    Ok (np_unique vals).

(** ** simulate.py: the grids of the sweep *)

(** Python's two-argument [min] and [max]. *)
Definition py_min (a b : Q) : Q := if Qltb b a then b else a.
Definition py_max (a b : Q) : Q := if Qltb a b then b else a.

(** [np.clip(v, lo, hi)] is [minimum(maximum(v, lo), hi)]. *)
Definition np_clip (lo hi v : Q) : Q :=
  let m := if Qltb v lo then lo else v in
  if Qltb hi m then hi else m.

Definition _frange (start stop step : Q) : result (list Q) :=
  n <- n_points start stop step ;;
  let vals := map (fun i => start + step * i) (np_arange n) in
  let vals := map (np_clip (py_min start stop) (py_max start stop)) vals in
  Ok vals.

(** ** Python operations on configuration values *)

Fixpoint lookup (k : string) (d : list (string * pyval)) : option pyval :=
  match d with
  | [] => None
  | (k', v) :: t => if String.eqb k k' then Some v else lookup k t
  end.

Definition has_key (k : string) (d : list (string * pyval)) : bool :=
  match lookup k d with
  | Some _ => true
  | None => false
  end.

(** [s in t] for two strings: [s] occurs in [t]. *)
Definition is_substring (s t : string) : bool :=
  match String.index 0 s t with
  | Some _ => true
  | None => false
  end.

(** [v[k]] with a string key. *)
Definition getitem (v : pyval) (k : string) : result pyval :=
  match v with
  | PDict d =>
      match lookup k d with
      | Some x => Ok x
      | None => Raise (KeyError k)
      end
  | _ => Raise TypeError
  end.

(** [v.get(k)]. *)
Definition py_get (v : pyval) (k : string) : result pyval :=
  match v with
  | PDict d =>
      match lookup k d with
      | Some x => Ok x
      | None => Ok PNone
      end
  | _ => Raise AttributeError
  end.

(** [key in container]. *)
Definition py_in (key container : pyval) : result bool :=
  match container, key with
  | PDict d, PStr s => Ok (has_key s d)
  | PDict d, PDict _ => Raise TypeError
  | PDict d, _ => Ok false
  | PStr t, PStr s => Ok (is_substring s t)
  | _, _ => Raise TypeError
  end.

(** [container[key]] where the key is itself a value. *)
Definition getitem_val (container key : pyval) : result pyval :=
  match container, key with
  | PDict d, PStr s => getitem container s
  | _, _ => Raise TypeError
  end.

(** [list(v.keys())]. *)
Definition py_keys (v : pyval) : result (list string) :=
  match v with
  | PDict d => Ok (map fst d)
  | _ => Raise AttributeError
  end.

Section Simulate.

(** [float(s)] on a string is left open: [None] stands for the
    [ValueError] of text that is not a number. *)
Variable float_of_string : string -> option Q.

(** [float(v)]. *)
Definition py_float (v : pyval) : result Q :=
  match v with
  | PNum q => Ok q
  | PStr s =>
      match float_of_string s with
      | Some q => Ok q
      | None => Raise (ValueError [Lit "could not convert string to float: "; Fmt v])
      end
  | _ => Raise TypeError
  end.

(** [float(v[k])]. *)
Definition float_at (v : pyval) (k : string) : result Q :=
  x <- getitem v k ;; py_float x.

Definition get_rate_shocks_bp (assumptions : pyval) : result (list Q) :=
  cfg <- getitem assumptions "interest_rate_stress" ;;
  start <- float_at cfg "start_bp" ;;
  stop <- float_at cfg "stop_bp" ;;
  step <- float_at cfg "step_bp" ;;
  _frange start stop step.

Definition get_occupancy_grid (assumptions preset_cfg : pyval) : result (list Q) :=
  rs <- getitem assumptions "revenue_stress" ;;
  occ_cfg <- getitem rs "occupancy_range" ;;
  occ_cfg <- match preset_cfg with
             | PDict d =>
                 if has_key "occupancy_range_override" d
                 then getitem preset_cfg "occupancy_range_override"
                 else Ok occ_cfg
             | _ => Ok occ_cfg
             end ;;
  start <- float_at occ_cfg "start" ;;
  stop <- float_at occ_cfg "stop" ;;
  step <- float_at occ_cfg "step" ;;
  _frange start stop step.

Definition unknown_preset_msg (name : pyval) (keys : list string) : list fragment :=
  [Lit "Unknown preset '"; Fmt name; Lit "'. Available: "; FmtKeys keys].

Definition missing_encoding_msg (name : pyval) : list fragment :=
  [Lit "Preset '"; Fmt name;
   Lit "' must define rent_to_debt_ratio OR (gross_yield and ltv) OR (annual_rent_gbp and mortgage_balance_gbp)."].

(** [a and b] on two membership tests: the second is not evaluated when
    the first is false. *)
Definition both_in (k1 k2 : string) (cfg : pyval) : result bool :=
  b1 <- py_in (PStr k1) cfg ;;
  if b1 then py_in (PStr k2) cfg else Ok false.

Definition select_calibration (assumptions : pyval) (preset_name : option string)
  : result (Q * pyval * pyval) :=
  calib <- getitem assumptions "calibration" ;;
  presets <- getitem calib "presets" ;;
  name <- match preset_name with
          | Some s => Ok (PStr s)
          | None => py_get calib "default_preset"
          end ;;
  known <- py_in name presets ;;
  if negb known then
    keys <- py_keys presets ;;
    Raise (ValueError (unknown_preset_msg name keys))
  else
    cfg <- getitem_val presets name ;;
    direct <- py_in (PStr "rent_to_debt_ratio") cfg ;;
    if direct then
      theta <- float_at cfg "rent_to_debt_ratio" ;;
      Ok (theta, name, cfg)
    else
      by_yield <- both_in "gross_yield" "ltv" cfg ;;
      if by_yield then
        gross_yield <- float_at cfg "gross_yield" ;;
        ltv <- float_at cfg "ltv" ;;
        theta <- py_div gross_yield ltv ;;
        Ok (theta, name, cfg)
      else
        by_balance <- both_in "annual_rent_gbp" "mortgage_balance_gbp" cfg ;;
        if by_balance then
          rent <- float_at cfg "annual_rent_gbp" ;;
          balance <- float_at cfg "mortgage_balance_gbp" ;;
          theta <- py_div rent balance ;;
          Ok (theta, name, cfg)
        else
          Raise (ValueError (missing_encoding_msg name)).

(** One row of the result table. *)
Record row : Type := mk_row {
  row_interest_rate : Q;
  row_rate_shock_bp : Q;
  row_occupancy_multiplier : Q;
  row_net_cashflow : Q;
  row_dscr : Q
}.

(** A [for] loop that threads the list [rows] and stops at the first
    exception. *)
Fixpoint for_each {A S : Type} (xs : list A) (body : S -> A -> result S) (s : S) : result S :=
  match xs with
  | [] => Ok s
  | x :: t => s' <- body s x ;; for_each t body s'
  end.

(** The body of the inner loop: one grid cell, appended to [rows]. *)
Definition cell (rent opex_ratio debt base_rate occ : Q) (rows : list row) (shock : Q)
  : result (list row) :=
  let r := base_rate + shock / 10000 in
  let revenue := rent * occ in
  let cf := net_cashflow revenue opex_ratio r debt in
  d <- dscr revenue opex_ratio r debt ;;
  Ok (rows ++ [mk_row r shock occ cf d]).

Definition sweep (rent opex_ratio debt base_rate : Q) (shocks_bp occ_grid : list Q)
  : result (list row) :=
  for_each occ_grid
    (fun rows occ => for_each shocks_bp (cell rent opex_ratio debt base_rate occ) rows)
    [].

Definition run_stress_test (assumptions : pyval) (base_rate theta : Q) (preset_cfg : pyval)
  : result (list row) :=
  bc <- getitem assumptions "base_cashflow" ;;
  rent <- float_at bc "gross_annual_rent" ;;
  bc <- getitem assumptions "base_cashflow" ;;
  opex_ratio <- float_at bc "operating_cost_ratio" ;;
  debt <- py_div rent theta ;;
  shocks_bp <- get_rate_shocks_bp assumptions ;;
  occ_grid <- get_occupancy_grid assumptions preset_cfg ;;
  sweep rent opex_ratio debt base_rate shocks_bp occ_grid.

End Simulate.

#[local] Open Scope string_scope.
#[local] Open Scope list_scope.
#[local] Open Scope Q_scope.

(** ** The vocabulary of the statements *)

(** Equality of two grids as lists of numbers. *)
Definition same_grid (l1 l2 : list Q) : Prop := Forall2 Qeq l1 l2.

(** The clipped arithmetic progression of [_frange], by index. *)
Definition frange_point (start stop step : Q) (i : nat) : Q :=
  np_clip (py_min start stop) (py_max start stop)
          (start + step * inject_Z (Z.of_nat i)).


(** The effective rate of a cell and what its row must hold. *)
Definition cell_rate (base_rate shock : Q) : Q := base_rate + shock / 10000.

Definition row_of_cell (rent opex_ratio debt base_rate : Q) (c : Q * Q) (r : row) : Prop :=
  let occ := fst c in
  let shock := snd c in
  row_occupancy_multiplier r = occ /\
  row_rate_shock_bp r = shock /\
  row_interest_rate r = cell_rate base_rate shock /\
  row_net_cashflow r = net_cashflow (rent * occ) opex_ratio (cell_rate base_rate shock) debt /\
  dscr (rent * occ) opex_ratio (cell_rate base_rate shock) debt = Ok (row_dscr r).

(** The configuration gives the rent and the operating cost ratio. *)
Definition base_cashflow_of (float_of_string : string -> option Q)
    (assumptions : pyval) (rent opex_ratio : Q) : Prop :=
  exists bc,
    getitem assumptions "base_cashflow" = Ok bc /\
    float_at float_of_string bc "gross_annual_rent" = Ok rent /\
    float_at float_of_string bc "operating_cost_ratio" = Ok opex_ratio.

(** The configuration has a preset [name], selected by [preset_name] or by
    default, and [cfg] is its body. *)
Definition resolves_to (assumptions : pyval) (preset_name : option string)
    (name : string) (cfg : pyval) : Prop :=
  exists calib presets,
    getitem assumptions "calibration" = Ok calib /\
    getitem calib "presets" = Ok (PDict presets) /\
    match preset_name with
    | Some s => Ok (PStr s)
    | None => py_get calib "default_preset"
    end = Ok (PStr name) /\
    lookup name presets = Some cfg.

(** ** Two configurations to run the program on *)

Definition example_presets : pyval :=
  PDict
    [("baseline", PDict [("rent_to_debt_ratio", PNum 0.1)]);
     ("by_yield", PDict [("gross_yield", PNum 0.06); ("ltv", PNum 0.6)]);
     ("by_balance", PDict [("annual_rent_gbp", PNum 12000);
                           ("mortgage_balance_gbp", PNum 150000)]);
     ("mixed", PDict [("gross_yield", PNum 0.06); ("ltv", PNum 0.6);
                      ("rent_to_debt_ratio", PNum 0.08);
                      ("annual_rent_gbp", PNum 12000);
                      ("mortgage_balance_gbp", PNum 150000)]);
     ("negative_ltv", PDict [("gross_yield", PNum 0.06); ("ltv", PNum (-0.6))]);
     ("no_encoding", PDict [("gross_yield", PNum 0.06)])].

(** Shocks 0, 50, 100 bp and occupancy 0.5, 1. *)
Definition example_assumptions : pyval :=
  PDict
    [("base_cashflow", PDict [("gross_annual_rent", PNum 120000);
                              ("operating_cost_ratio", PNum 0.35)]);
     ("financing", PDict [("base_interest_rate_value", PNum 0.05)]);
     ("interest_rate_stress", PDict [("start_bp", PNum 0); ("stop_bp", PNum 100);
                                     ("step_bp", PNum 50)]);
     ("revenue_stress",
      PDict [("occupancy_range", PDict [("start", PNum 0.5); ("stop", PNum 1);
                                        ("step", PNum 0.5)])]);
     ("calibration", PDict [("default_preset", PStr "baseline");
                            ("presets", example_presets)])].


(** No string of these configurations is read as a number. *)
Definition no_float_strings : string -> option Q := fun _ => None.

(** The grid that [get_occupancy_grid] and [get_rate_shocks_bp] make of a
    mapping with the three keys [k_start], [k_stop] and [k_step]. *)
Definition range_grid (float_of_string : string -> option Q)
    (cfg : pyval) (k_start k_stop k_step : string) : result (list Q) :=
  start <- float_at float_of_string cfg k_start ;;
  stop <- float_at float_of_string cfg k_stop ;;
  step <- float_at float_of_string cfg k_step ;;
  _frange start stop step.

(** ** model.py: the grid generators and their configuration

    The generators read two mappings of the configuration, each with keys
    that may be absent.  A mapping is a record of optional fields: [None]
    is an absent key, and a mapping that is absent altogether reads as the
    empty one, as [assumptions.get(key, {})] makes it.  A legacy list holds
    numbers. *)

Record rate_stress_cfg : Type := mk_rate_stress {
  ir_shocks_bp : option (list Q);
  ir_start_bp : option Q;
  ir_stop_bp : option Q;
  ir_step_bp : option Q
}.

Record occupancy_range_cfg : Type := mk_occupancy_range {
  occ_start : option Q;
  occ_stop : option Q;
  occ_step : option Q
}.

Record revenue_stress_cfg : Type := mk_revenue_stress {
  rs_occupancy_multipliers : option (list (string * Q));
  rs_occupancy_range : option occupancy_range_cfg
}.

Record model_assumptions : Type := mk_model_assumptions {
  interest_rate_stress : option rate_stress_cfg;
  revenue_stress : option revenue_stress_cfg
}.

(** [d[k]] on a record field. *)
Definition required {A : Type} (k : string) (field : option A) : result A :=
  match field with
  | Some x => Ok x
  | None => Raise (KeyError k)
  end.

(** [sorted(l)] on numbers. *)
Fixpoint sorted_insert (x : Q) (l : list Q) : list Q :=
  match l with
  | [] => [x]
  | y :: t => if Qleb x y then x :: y :: t else y :: sorted_insert x t
  end.

Definition py_sorted (l : list Q) : list Q := fold_right sorted_insert [] l.

Definition generate_rate_shocks_bp (assumptions : model_assumptions) : result (list Q) :=
  let ir := match interest_rate_stress assumptions with
            | Some ir => ir
            | None => mk_rate_stress None None None None
            end in
  match ir_shocks_bp ir with
  | Some shocks => Ok (py_sorted shocks)
  | None =>
      start_bp <- required "start_bp" (ir_start_bp ir) ;;
      stop_bp <- required "stop_bp" (ir_stop_bp ir) ;;
      step_bp <- required "step_bp" (ir_step_bp ir) ;;
      _inclusive_arange start_bp stop_bp step_bp 6
  end.

Definition generate_occupancy_grid (assumptions : model_assumptions) : result (list Q) :=
  let rs := match revenue_stress assumptions with
            | Some rs => rs
            | None => mk_revenue_stress None None
            end in
  match rs_occupancy_multipliers rs with
  | Some multipliers => Ok (py_sorted (map snd multipliers))
  | None =>
      occ <- required "occupancy_range" (rs_occupancy_range rs) ;;
      start <- required "start" (occ_start occ) ;;
      stop <- required "stop" (occ_stop occ) ;;
      step <- required "step" (occ_step occ) ;;
      _inclusive_arange start stop step 6
  end.

(** ** plots.py: cell edges and the colour scale *)
















(** ** The binary64 layer

    The same formulas, range generator and sweep on IEEE 754 binary64
    numbers (Rocq's primitive floats), operation by operation as Python and
    numpy evaluate them: every result is rounded to nearest, overflows to
    an infinity and underflows to zero, and NaN compares false.  This layer
    starts from the numbers that [float(...)] has read from the
    configuration; reading the configuration is in the exact layer above. *)

Module Binary64.

#[local] Open Scope float_scope.

(** Python's [a / b] on floats. *)
Definition py_div (a b : float) : result float :=
  if b =? 0 then Raise ZeroDivisionError else Ok (a / b).

Definition net_operating_income (revenue operating_cost_ratio : float) : float :=
  revenue * (1 - operating_cost_ratio).

Definition interest_cost (interest_rate debt_balance : float) : float :=
  interest_rate * debt_balance.

Definition net_cashflow
    (revenue operating_cost_ratio interest_rate debt_balance : float) : float :=
  let operating_costs := revenue * operating_cost_ratio in
  revenue - operating_costs - interest_cost interest_rate debt_balance.

Definition dscr
    (revenue operating_cost_ratio interest_rate debt_balance : float) : result float :=
  let interest := interest_cost interest_rate debt_balance in
  if interest <=? 0 then Raise (ValueError dscr_msg)
  else Ok (revenue * (1 - operating_cost_ratio) / interest).

Definition analytical_break_even_occupancy
    (interest_rate operating_cost_ratio debt_balance base_rent : float) : result float :=
  py_div (interest_rate * debt_balance) ((1 - operating_cost_ratio) * base_rent).

(** [int(np.floor(x))]: the greatest integer at most [x]; NaN and the
    infinities have none. *)
Definition int_floor (x : float) : result Z :=
  match Prim2SF x with
  | S754_zero _ => Ok 0%Z
  | S754_finite s m e =>
      let v := if s then Zneg m else Zpos m in
      Ok (if (0 <=? e)%Z then v * 2 ^ e else v / 2 ^ (- e))%Z
  | S754_infinity _ => Raise OverflowError
  | S754_nan => Raise (ValueError [Lit "cannot convert float NaN to integer"])
  end.

(** [np.arange(n, dtype=float)]. *)
Definition np_arange (n : Z) : list float :=
  map (fun i => of_uint63 (Uint63.of_Z (Z.of_nat i))) (seq 0 (Z.to_nat n)).

Definition n_points (start stop step : float) : result Z :=
  x <- py_div (stop - start) step ;;
  k <- int_floor (x + 1e-12) ;;
  Ok (k + 1)%Z.

(** Python's two-argument [min] and [max]. *)
Definition py_min (a b : float) : float := if b <? a then b else a.
Definition py_max (a b : float) : float := if a <? b then b else a.

(** numpy's [maximum] and [minimum], which hand on a NaN, and [np.clip]. *)
Definition np_maximum (a b : float) : float := if (b <? a) || is_nan a then a else b.
Definition np_minimum (a b : float) : float := if (a <? b) || is_nan a then a else b.
Definition np_clip (lo hi v : float) : float := np_minimum (np_maximum v lo) hi.

Definition _frange (start stop step : float) : result (list float) :=
  n <- n_points start stop step ;;
  let vals := map (fun i => start + step * i) (np_arange n) in
  let vals := map (np_clip (py_min start stop) (py_max start stop)) vals in
  Ok vals.

(** The numbers that [run_stress_test] reads from the configuration; the
    occupancy range is the one [get_occupancy_grid] selects, the preset's
    override or the global one. *)
Record config : Type := mk_config {
  gross_annual_rent : float;
  operating_cost_ratio : float;
  start_bp : float;
  stop_bp : float;
  step_bp : float;
  occupancy_start : float;
  occupancy_stop : float;
  occupancy_step : float
}.

Record row : Type := mk_row {
  row_interest_rate : float;
  row_rate_shock_bp : float;
  row_occupancy_multiplier : float;
  row_net_cashflow : float;
  row_dscr : float
}.

Definition cell (rent opex_ratio debt base_rate occ : float) (rows : list row) (shock : float)
  : result (list row) :=
  let r := base_rate + shock / 10000 in
  let revenue := rent * occ in
  let cf := net_cashflow revenue opex_ratio r debt in
  d <- dscr revenue opex_ratio r debt ;;
  Ok (rows ++ [mk_row r shock occ cf d]).

Definition sweep (rent opex_ratio debt base_rate : float) (shocks_bp occ_grid : list float)
  : result (list row) :=
  for_each occ_grid
    (fun rows occ => for_each shocks_bp (cell rent opex_ratio debt base_rate occ) rows)
    [].

Definition run_stress_test (cfg : config) (base_rate theta : float) : result (list row) :=
  let rent := gross_annual_rent cfg in
  let opex_ratio := operating_cost_ratio cfg in
  debt <- py_div rent theta ;;
  shocks_bp <- _frange (start_bp cfg) (stop_bp cfg) (step_bp cfg) ;;
  occ_grid <- _frange (occupancy_start cfg) (occupancy_stop cfg) (occupancy_step cfg) ;;
  sweep rent opex_ratio debt base_rate shocks_bp occ_grid.

(** The row that the inner loop appends for the cell [c = (occ, shock)]. *)
Definition row_of_cell (rent opex_ratio debt base_rate : float) (c : float * float) (r : row)
  : Prop :=
  let occ := fst c in
  let shock := snd c in
  row_occupancy_multiplier r = occ /\
  row_rate_shock_bp r = shock /\
  row_interest_rate r = base_rate + shock / 10000 /\
  row_net_cashflow r = net_cashflow (rent * occ) opex_ratio (base_rate + shock / 10000) debt /\
  dscr (rent * occ) opex_ratio (base_rate + shock / 10000) debt = Ok (row_dscr r).










End Binary64.

(** ** Comparison lemmas *)

Lemma Qleb_true (a b : Q) : Qleb a b = true <-> a <= b.
Proof. unfold Qleb. apply Qle_bool_iff. Qed.

Lemma Qleb_false (a b : Q) : Qleb a b = false <-> b < a.
Proof.
  unfold Qleb. split; intro H.
  - apply Qnot_le_lt. intro L. apply Qle_bool_iff in L. congruence.
  - destruct (Qle_bool a b) eqn:E; trivial.
    apply Qle_bool_iff in E. lra.
Qed.

Lemma Qltb_true (a b : Q) : Qltb a b = true <-> a < b.
Proof.
  unfold Qltb. rewrite negb_true_iff. apply (Qleb_false b a).
Qed.

Lemma Qltb_false (a b : Q) : Qltb a b = false <-> b <= a.
Proof.
  unfold Qltb. rewrite negb_false_iff. apply (Qleb_true b a).
Qed.

Lemma py_div_ok (a b : Q) : ~ b == 0 -> py_div a b = Ok (a / b).
Proof.
  intro H. unfold py_div.
  destruct (Qeq_bool b 0) eqn:E; trivial.
  apply Qeq_bool_iff in E. contradiction.
Qed.

Lemma py_div_zero (a b : Q) : b == 0 -> py_div a b = Raise ZeroDivisionError.
Proof.
  intro H. unfold py_div. apply Qeq_bool_iff in H. now rewrite H.
Qed.

Lemma dscr_ok (revenue c r d : Q) :
  0 < r * d -> dscr revenue c r d = Ok (revenue * (1 - c) / (r * d)).
Proof.
  intro H. unfold dscr, interest_cost.
  destruct (Qleb (r * d) 0) eqn:E.
  - apply Qleb_true in E. lra.
  - apply py_div_ok. lra.
Qed.


(** ** The financial formulas *)




(** ** Grid generation *)

Lemma n_points_ok (start stop step : Q) :
  ~ step == 0 ->
  n_points start stop step = Ok (Qfloor ((stop - start) / step + tol12) + 1)%Z.
Proof.
  intro H. unfold n_points. now rewrite (py_div_ok _ _ H).
Qed.


Lemma frange_zero_step (start stop step : Q) :
  step == 0 -> _frange start stop step = Raise ZeroDivisionError.
Proof.
  intro H. unfold _frange, n_points. now rewrite (py_div_zero _ _ H).
Qed.


(** C8: the range generator of the sweep, [_frange], takes a negative
    step without any error: from 100 down to 0 in steps of -10 it returns
    the eleven values 100, 90, ..., 0.  (Its sibling [_inclusive_arange]
    rejects the same step, see [inclusive_arange_rejects_step].) *)
Theorem frange_accepts_negative_step :
  exists vals,
    _frange 100 0 (-10) = Ok vals /\
    same_grid vals [100; 90; 80; 70; 60; 50; 40; 30; 20; 10; 0].
Proof.
  eexists. split.
  - vm_compute. reflexivity.
  - repeat constructor; reflexivity.
Qed.

(** C3: on the range 0 to 95 in steps of 10 the range generator of the
    sweep, [_frange], stops at 90: the endpoint 95 is not in the grid. *)
Theorem frange_drops_unaligned_endpoint :
  exists vals,
    _frange 0 95 10 = Ok vals /\
    same_grid vals [0; 10; 20; 30; 40; 50; 60; 70; 80; 90] /\
    ~ InA Qeq 95 vals.
Proof.
  eexists. split; [| split].
  - vm_compute. reflexivity.
  - repeat constructor; reflexivity.
  - intro H. repeat (inversion_clear H as [? ? E | ? ? H']; [discriminate E | rename H' into H]).
    inversion H.
Qed.

(** The two grids that the specification gives as examples, on
    [_inclusive_arange] with the six decimals of [generate_rate_shocks_bp]. *)
Lemma inclusive_arange_0_100_10 :
  exists vals,
    _inclusive_arange 0 100 10 6 = Ok vals /\
    same_grid vals [0; 10; 20; 30; 40; 50; 60; 70; 80; 90; 100].
Proof.
  eexists. split; [vm_compute; reflexivity | repeat constructor; reflexivity].
Qed.

Lemma inclusive_arange_0_95_10 :
  exists vals,
    _inclusive_arange 0 95 10 6 = Ok vals /\
    same_grid vals [0; 10; 20; 30; 40; 50; 60; 70; 80; 90; 95].
Proof.
  eexists. split; [vm_compute; reflexivity | repeat constructor; reflexivity].
Qed.

Lemma frange_0_100_10 :
  exists vals,
    _frange 0 100 10 = Ok vals /\
    same_grid vals [0; 10; 20; 30; 40; 50; 60; 70; 80; 90; 100].
Proof.
  eexists. split; [vm_compute; reflexivity | repeat constructor; reflexivity].
Qed.

(** *** The grid of [_inclusive_arange] ends at [stop] *)








Lemma insert_unique_above (a x : Q) (l : list Q) :
  a < x -> Forall (Qlt a) l -> Forall (Qlt a) (insert_unique x l).
Proof.
  intros Hx H. induction H as [| b t Hb Ht IH]; cbn.
  - now repeat constructor.
  - destruct (Qcompare x b); repeat constructor; trivial.
Qed.

Lemma insert_unique_sorted (x : Q) (l : list Q) :
  StronglySorted Qlt l -> StronglySorted Qlt (insert_unique x l).
Proof.
  induction 1 as [| a t Ht IH Ha]; cbn.
  - repeat constructor.
  - destruct (Qcompare x a) eqn:E.
    + now constructor.
    + apply Qlt_alt in E. constructor; [now constructor |].
      constructor; trivial.
      eapply Forall_impl; [| exact Ha]. intros b Hb. cbn in Hb. lra.
    + apply Qgt_alt in E. constructor; trivial. now apply insert_unique_above.
Qed.

Lemma np_unique_sorted (l : list Q) : StronglySorted Qlt (np_unique l).
Proof.
  induction l as [| a t IH]; cbn; [constructor | now apply insert_unique_sorted].
Qed.







(** *** The values of [_frange] *)

Lemma np_clip_cases (lo hi v : Q) :
  lo <= hi ->
  (v < lo /\ np_clip lo hi v = lo) \/
  (lo <= v <= hi /\ np_clip lo hi v = v) \/
  (hi < v /\ np_clip lo hi v = hi).
Proof.
  intro H. unfold np_clip.
  destruct (Qltb v lo) eqn:E1.
  - apply Qltb_true in E1. left. split; trivial.
    destruct (Qltb hi lo) eqn:E2; trivial.
    apply Qltb_true in E2. lra.
  - apply Qltb_false in E1.
    destruct (Qltb hi v) eqn:E2.
    + apply Qltb_true in E2. right. right. now split.
    + apply Qltb_false in E2. right. left. now split.
Qed.

Lemma py_min_max_order (a b : Q) : py_min a b <= py_max a b.
Proof.
  unfold py_min, py_max.
  destruct (Qltb b a) eqn:E1; destruct (Qltb a b) eqn:E2;
    rewrite ?Qltb_true, ?Qltb_false in *; lra.
Qed.

Lemma py_min_max_cases (a b : Q) :
  (a <= b /\ py_min a b == a /\ py_max a b == b) \/
  (b < a /\ py_min a b == b /\ py_max a b == a).
Proof.
  unfold py_min, py_max.
  destruct (Qltb b a) eqn:E1; destruct (Qltb a b) eqn:E2;
    rewrite ?Qltb_true, ?Qltb_false in *.
  - lra.
  - right. repeat split; try reflexivity; lra.
  - left. repeat split; try reflexivity; lra.
  - left. repeat split; try reflexivity; lra.
Qed.

Lemma inject_nat_lt (i j : nat) :
  (i < j)%nat -> inject_Z (Z.of_nat i) + 1 <= inject_Z (Z.of_nat j).
Proof.
  intro H. replace 1 with (inject_Z 1) by reflexivity.
  rewrite <- inject_Z_plus. rewrite <- Zle_Qle. lia.
Qed.

Lemma inject_nat_nonneg (i : nat) : 0 <= inject_Z (Z.of_nat i).
Proof.
  replace 0 with (inject_Z 0) by reflexivity. rewrite <- Zle_Qle. lia.
Qed.

Lemma inject_nat_below_floor (j : nat) (x : Q) :
  (j < Z.to_nat (Qfloor x + 1))%nat -> inject_Z (Z.of_nat j) <= x.
Proof.
  intro H. apply Qle_trans with (inject_Z (Qfloor x)); [| apply Qfloor_le].
  rewrite <- Zle_Qle. lia.
Qed.

Lemma frange_points (start stop step : Q) (vals : list Q) :
  _frange start stop step = Ok vals ->
  ~ step == 0 /\
  vals = map (frange_point start stop step)
             (seq 0 (Z.to_nat (Qfloor ((stop - start) / step + tol12) + 1))).
Proof.
  intro H. destruct (Qeq_dec step 0) as [Z | NZ].
  - rewrite (frange_zero_step _ _ _ Z) in H. discriminate.
  - split; trivial. unfold _frange in H. rewrite (n_points_ok _ _ _ NZ) in H.
    cbn in H. injection H as <-. unfold np_arange. now rewrite !map_map.
Qed.

(** ** The sweep *)

Section Sweep.

Variables rent opex_ratio debt base_rate : Q.

Lemma cell_inv (occ shock : Q) (rows rows' : list row) :
  cell rent opex_ratio debt base_rate occ rows shock = Ok rows' ->
  exists r, rows' = rows ++ [r] /\
            row_of_cell rent opex_ratio debt base_rate (occ, shock) r.
Proof.
  unfold cell. intro H.
  destruct (dscr (rent * occ) opex_ratio (base_rate + shock / 10000) debt) as [d |] eqn:E;
    cbn in H; [| discriminate].
  injection H as <-. eexists. split; [reflexivity |].
  repeat split; cbn; trivial.
Qed.

Lemma inner_loop_inv (occ : Q) (shocks : list Q) :
  forall rows rows',
    for_each shocks (cell rent opex_ratio debt base_rate occ) rows = Ok rows' ->
    exists new, rows' = rows ++ new /\
                Forall2 (row_of_cell rent opex_ratio debt base_rate) (map (pair occ) shocks) new.
Proof.
  induction shocks as [| s t IH]; cbn; intros rows rows' H.
  - injection H as <-. exists []. split; [now rewrite app_nil_r | constructor].
  - destruct (cell rent opex_ratio debt base_rate occ rows s) as [rows1 |] eqn:E;
      cbn in H; [| discriminate].
    apply cell_inv in E. destruct E as [r [-> Hr]].
    apply IH in H. destruct H as [new [-> Hnew]].
    exists (r :: new). split; [now rewrite <- app_assoc | now constructor].
Qed.

Lemma outer_loop_inv (shocks occs : list Q) :
  forall rows rows',
    for_each occs
      (fun rows occ => for_each shocks (cell rent opex_ratio debt base_rate occ) rows)
      rows = Ok rows' ->
    exists new, rows' = rows ++ new /\
                Forall2 (row_of_cell rent opex_ratio debt base_rate) (list_prod occs shocks) new.
Proof.
  induction occs as [| o t IH]; cbn; intros rows rows' H.
  - injection H as <-. exists []. split; [now rewrite app_nil_r | constructor].
  - destruct (for_each shocks (cell rent opex_ratio debt base_rate o) rows) as [rows1 |] eqn:E;
      cbn in H; [| discriminate].
    apply inner_loop_inv in E. destruct E as [new1 [-> H1]].
    apply IH in H. destruct H as [new2 [-> H2]].
    exists (new1 ++ new2). split; [now rewrite <- app_assoc | now apply Forall2_app].
Qed.

Lemma sweep_inv (shocks occs : list Q) (rows : list row) :
  sweep rent opex_ratio debt base_rate shocks occs = Ok rows ->
  Forall2 (row_of_cell rent opex_ratio debt base_rate) (list_prod occs shocks) rows.
Proof.
  unfold sweep. intro H. apply outer_loop_inv in H.
  destruct H as [new [-> H]]. exact H.
Qed.


Lemma for_each_raises {A S : Type} (body : S -> A -> result S) (e : exn) (bad : A) :
  (forall s x, (exists s', body s x = Ok s') \/ body s x = Raise e) ->
  (forall s, body s bad = Raise e) ->
  forall xs, In bad xs -> forall s, for_each xs body s = Raise e.
Proof.
  intros Hbody Hbad xs. induction xs as [| x t IH]; intros Hin s.
  - destruct Hin.
  - cbn. destruct (Hbody s x) as [[s' E] | E]; rewrite E; cbn; trivial.
    destruct Hin as [-> | Hin].
    + rewrite Hbad in E. discriminate.
    + now apply IH.
Qed.



End Sweep.

(** ** run_stress_test *)

Lemma bind_ok {A B : Type} (m : result A) (k : A -> result B) (b : B) :
  bind m k = Ok b -> exists a, m = Ok a /\ k a = Ok b.
Proof.
  destruct m as [a | e]; cbn; intro H; [eauto | discriminate].
Qed.

Lemma Forall2_In_right {A B : Type} (R : A -> B -> Prop) (l1 : list A) (l2 : list B) (y : B) :
  Forall2 R l1 l2 -> In y l2 -> exists x, In x l1 /\ R x y.
Proof.
  induction 1 as [| a b t1 t2 Hab _ IH]; intro Hin.
  - destruct Hin.
  - destruct Hin as [<- | Hin].
    + exists a. split; [now left | exact Hab].
    + destruct (IH Hin) as [x [Hx Hr]]. exists x. split; [now right | exact Hr].
Qed.

Section RunStressTest.

Variable float_of_string : string -> option Q.

Lemma run_stress_test_resolved (assumptions preset_cfg : pyval) (base_rate theta rent opex_ratio : Q) :
  base_cashflow_of float_of_string assumptions rent opex_ratio ->
  run_stress_test float_of_string assumptions base_rate theta preset_cfg =
  (debt <- py_div rent theta ;;
   shocks_bp <- get_rate_shocks_bp float_of_string assumptions ;;
   occ_grid <- get_occupancy_grid float_of_string assumptions preset_cfg ;;
   sweep rent opex_ratio debt base_rate shocks_bp occ_grid).
Proof.
  intros [bc [H1 [H2 H3]]]. unfold run_stress_test.
  rewrite H1. cbn [bind]. rewrite H2. cbn [bind]. rewrite H3. reflexivity.
Qed.


(** C4: with a rent of 120000, an operating cost ratio of 0.35, a base
    rate of 0.05 and theta = 0.1, the run sweeps with the debt
    120000 / 0.1 = 1200000, and in a table it returns every row with a
    rate shock of 0 bp and an occupancy multiplier of 1 has the interest
    rate 0.05, the net cashflow 18000 and the DSCR 1.3. *)
Theorem run_stress_test_base_scenario
    (assumptions preset_cfg : pyval) (base_rate theta rent opex_ratio : Q) :
  base_cashflow_of float_of_string assumptions rent opex_ratio ->
  rent == 120000 -> opex_ratio == 0.35 -> base_rate == 0.05 -> theta == 0.1 ->
  (exists debt,
      debt == 1200000 /\
      run_stress_test float_of_string assumptions base_rate theta preset_cfg =
      (shocks_bp <- get_rate_shocks_bp float_of_string assumptions ;;
       occ_grid <- get_occupancy_grid float_of_string assumptions preset_cfg ;;
       sweep rent opex_ratio debt base_rate shocks_bp occ_grid)) /\
  (forall rows r,
      run_stress_test float_of_string assumptions base_rate theta preset_cfg = Ok rows ->
      In r rows ->
      row_rate_shock_bp r == 0 -> row_occupancy_multiplier r == 1 ->
      rent * row_occupancy_multiplier r == 120000 /\
      row_interest_rate r == 0.05 /\
      row_net_cashflow r == 18000 /\
      row_dscr r == 1.3).
Proof.
  intros Hbc Er Ec Eb Et.
  assert (NZ : ~ theta == 0) by (rewrite Et; discriminate).
  split.
  - exists (rent / theta). split.
    + rewrite Er, Et. reflexivity.
    + rewrite (run_stress_test_resolved _ _ _ _ _ _ Hbc).
      now rewrite (py_div_ok _ _ NZ).
  - intros rows r Hrun Hin Es Eo.
    rewrite (run_stress_test_resolved _ _ _ _ _ _ Hbc) in Hrun.
    rewrite (py_div_ok _ _ NZ) in Hrun. cbn [bind] in Hrun.
    apply bind_ok in Hrun. destruct Hrun as [shocks [_ Hrun]].
    apply bind_ok in Hrun. destruct Hrun as [occs [_ Hrun]].
    apply sweep_inv in Hrun.
    destruct (Forall2_In_right _ _ _ _ Hrun Hin) as [c [_ Hc]].
    destruct Hc as [A [B [C [D E]]]]. cbv zeta in *.
    rewrite <- A, <- B in *. clear A B c.
    assert (Hrate : cell_rate base_rate (row_rate_shock_bp r) == 0.05).
    { unfold cell_rate. rewrite Es, Eb. reflexivity. }
    assert (Hdebt : rent / theta == 1200000) by (rewrite Er, Et; reflexivity).
    assert (Hrev : rent * row_occupancy_multiplier r == 120000).
    { rewrite Er, Eo. reflexivity. }
    split; [exact Hrev | split; [| split]].
    + rewrite C. exact Hrate.
    + rewrite D. unfold net_cashflow, interest_cost. cbv zeta.
      rewrite Hrev, Hrate, Hdebt, Ec. reflexivity.
    + assert (P : 0 < cell_rate base_rate (row_rate_shock_bp r) * (rent / theta)).
      { rewrite Hrate, Hdebt. reflexivity. }
      rewrite (dscr_ok _ _ _ _ P) in E. injection E as <-.
      rewrite Hrev, Hrate, Hdebt, Ec. reflexivity.
Qed.

End RunStressTest.

(** ** Calibration *)

Lemma has_key_lookup (k : string) (d : list (string * pyval)) (v : pyval) :
  lookup k d = Some v -> has_key k d = true.
Proof. unfold has_key. now intros ->. Qed.

Lemma has_key_none (k : string) (d : list (string * pyval)) :
  lookup k d = None -> has_key k d = false.
Proof. unfold has_key. now intros ->. Qed.

Lemma theta_from_yield_ltv_spec (gross_yield ltv : Q) :
  (0 < ltv -> theta_from_yield_ltv gross_yield ltv = Ok (gross_yield / ltv)) /\
  (ltv <= 0 -> theta_from_yield_ltv gross_yield ltv = Raise (ValueError ltv_msg)).
Proof.
  unfold theta_from_yield_ltv. split; intro H.
  - destruct (Qleb ltv 0) eqn:E.
    + apply Qleb_true in E. lra.
    + apply py_div_ok. lra.
  - apply Qleb_true in H. now rewrite H.
Qed.

Section Calibration.

Variable float_of_string : string -> option Q.

(** Once the preset is found, what is left of [select_calibration] is its
    chain of tests on the preset body. *)
Lemma select_calibration_resolved
    (assumptions : pyval) (preset_name : option string) (name : string)
    (d : list (string * pyval)) :
  resolves_to assumptions preset_name name (PDict d) ->
  select_calibration float_of_string assumptions preset_name =
  if has_key "rent_to_debt_ratio" d then
    theta <- float_at float_of_string (PDict d) "rent_to_debt_ratio" ;;
    Ok (theta, PStr name, PDict d)
  else if has_key "gross_yield" d && has_key "ltv" d then
    gross_yield <- float_at float_of_string (PDict d) "gross_yield" ;;
    ltv <- float_at float_of_string (PDict d) "ltv" ;;
    theta <- py_div gross_yield ltv ;;
    Ok (theta, PStr name, PDict d)
  else if has_key "annual_rent_gbp" d && has_key "mortgage_balance_gbp" d then
    rent <- float_at float_of_string (PDict d) "annual_rent_gbp" ;;
    balance <- float_at float_of_string (PDict d) "mortgage_balance_gbp" ;;
    theta <- py_div rent balance ;;
    Ok (theta, PStr name, PDict d)
  else Raise (ValueError (missing_encoding_msg (PStr name))).
Proof.
  intros [calib [presets [H1 [H2 [H3 H4]]]]].
  unfold select_calibration.
  rewrite H1. cbn [bind]. rewrite H2. cbn [bind]. rewrite H3. cbn [bind py_in].
  rewrite (has_key_lookup _ _ _ H4). cbn [negb bind getitem_val getitem].
  rewrite H4. cbn [bind py_in].
  destruct (has_key "rent_to_debt_ratio" d); trivial.
  unfold both_in. cbn [bind py_in].
  destruct (has_key "gross_yield" d); cbn [andb bind];
    [destruct (has_key "ltv" d); trivial |];
    (destruct (has_key "annual_rent_gbp" d); cbn [andb bind]; trivial;
     destruct (has_key "mortgage_balance_gbp" d); trivial).
Qed.

Lemma float_at_lookup (d : list (string * pyval)) (k : string) (v : pyval) :
  lookup k d = Some v -> float_at float_of_string (PDict d) k = py_float float_of_string v.
Proof. intro H. unfold float_at, getitem. now rewrite H. Qed.

(** C7: on a preset that is found, theta comes from the first encoding
    present, in the order: the direct ratio; gross yield over LTV; annual
    rent over mortgage balance.  The fields of the later encodings play no
    part.  With none of the three, the error names all three. *)
Theorem select_calibration_first_match_wins
    (assumptions : pyval) (preset_name : option string) (name : string)
    (d : list (string * pyval)) :
  resolves_to assumptions preset_name name (PDict d) ->
  (forall v theta,
      lookup "rent_to_debt_ratio" d = Some v ->
      py_float float_of_string v = Ok theta ->
      select_calibration float_of_string assumptions preset_name
      = Ok (theta, PStr name, PDict d)) /\
  (forall vy vl gross_yield ltv,
      lookup "rent_to_debt_ratio" d = None ->
      lookup "gross_yield" d = Some vy -> lookup "ltv" d = Some vl ->
      py_float float_of_string vy = Ok gross_yield ->
      py_float float_of_string vl = Ok ltv ->
      ~ ltv == 0 ->
      select_calibration float_of_string assumptions preset_name
      = Ok (gross_yield / ltv, PStr name, PDict d)) /\
  (forall vr vb rent balance,
      lookup "rent_to_debt_ratio" d = None ->
      lookup "gross_yield" d = None \/ lookup "ltv" d = None ->
      lookup "annual_rent_gbp" d = Some vr -> lookup "mortgage_balance_gbp" d = Some vb ->
      py_float float_of_string vr = Ok rent ->
      py_float float_of_string vb = Ok balance ->
      ~ balance == 0 ->
      select_calibration float_of_string assumptions preset_name
      = Ok (rent / balance, PStr name, PDict d)) /\
  (lookup "rent_to_debt_ratio" d = None ->
   lookup "gross_yield" d = None \/ lookup "ltv" d = None ->
   lookup "annual_rent_gbp" d = None \/ lookup "mortgage_balance_gbp" d = None ->
   select_calibration float_of_string assumptions preset_name
   = Raise (ValueError
       [Lit "Preset '"; Fmt (PStr name);
        Lit "' must define rent_to_debt_ratio OR (gross_yield and ltv) OR (annual_rent_gbp and mortgage_balance_gbp)."])).
Proof.
  intro H. rewrite (select_calibration_resolved _ _ _ _ H).
  assert (Hand : forall k1 k2,
             lookup k1 d = None \/ lookup k2 d = None -> has_key k1 d && has_key k2 d = false).
  { intros k1 k2 [K | K]; rewrite (has_key_none _ _ K);
      [reflexivity | apply andb_false_r]. }
  split; [| split; [| split]].
  - intros v theta Hv Hf.
    rewrite (has_key_lookup _ _ _ Hv), (float_at_lookup _ _ _ Hv), Hf. reflexivity.
  - intros vy vl gy ltv H0 Hy Hl Fy Fl NZ.
    rewrite (has_key_none _ _ H0), (has_key_lookup _ _ _ Hy), (has_key_lookup _ _ _ Hl).
    cbn [andb]. rewrite (float_at_lookup _ _ _ Hy), (float_at_lookup _ _ _ Hl), Fy, Fl.
    cbn [bind]. now rewrite (py_div_ok _ _ NZ).
  - intros vr vb rent balance H0 H1 Hr Hb Fr Fb NZ.
    rewrite (has_key_none _ _ H0), (Hand _ _ H1),
      (has_key_lookup _ _ _ Hr), (has_key_lookup _ _ _ Hb).
    cbn [andb]. rewrite (float_at_lookup _ _ _ Hr), (float_at_lookup _ _ _ Hb), Fr, Fb.
    cbn [bind]. now rewrite (py_div_ok _ _ NZ).
  - intros H0 H1 H2.
    now rewrite (has_key_none _ _ H0), (Hand _ _ H1), (Hand _ _ H2).
Qed.

(** A preset found with the yield/LTV encoding and a zero LTV: the division
    raises, and the run does not fall through to the next encoding. *)
Lemma select_calibration_zero_ltv
    (assumptions : pyval) (preset_name : option string) (name : string)
    (d : list (string * pyval)) (gross_yield ltv : Q) :
  resolves_to assumptions preset_name name (PDict d) ->
  lookup "rent_to_debt_ratio" d = None ->
  lookup "gross_yield" d = Some (PNum gross_yield) -> lookup "ltv" d = Some (PNum ltv) ->
  ltv == 0 ->
  select_calibration float_of_string assumptions preset_name = Raise ZeroDivisionError.
Proof.
  intros H H0 Hy Hl Z. rewrite (select_calibration_resolved _ _ _ _ H).
  rewrite (has_key_none _ _ H0), (has_key_lookup _ _ _ Hy), (has_key_lookup _ _ _ Hl).
  cbn [andb]. rewrite (float_at_lookup _ _ _ Hy), (float_at_lookup _ _ _ Hl).
  cbn [py_float bind]. now rewrite (py_div_zero _ _ Z).
Qed.

End Calibration.

(** ** The theorems on the example configurations *)


Lemma run_stress_test_base_scenario_witness :
  exists rows r,
    run_stress_test no_float_strings example_assumptions 0.05 0.1 PNone = Ok rows /\
    In r rows /\
    row_rate_shock_bp r == 0 /\ row_occupancy_multiplier r == 1 /\
    row_interest_rate r == 0.05 /\
    row_net_cashflow r == 18000 /\
    row_dscr r == 1.3.
Proof.
  destruct (run_stress_test no_float_strings example_assumptions 0.05 0.1 PNone)
    as [rows | e] eqn:H; [| vm_compute in H; discriminate H].
  pose proof H as H'. vm_compute in H'. injection H' as E.
  assert (Hbc : base_cashflow_of no_float_strings example_assumptions 120000 0.35)
    by (eexists; repeat split; vm_compute; reflexivity).
  destruct (run_stress_test_base_scenario no_float_strings example_assumptions PNone
              0.05 0.1 120000 0.35 Hbc
              ltac:(reflexivity) ltac:(reflexivity) ltac:(reflexivity) ltac:(reflexivity))
    as [_ K].
  subst rows. eexists. eexists. split; [reflexivity |].
  assert (Hin : forall A (a b c d : A) l, In d (a :: b :: c :: d :: l))
    by (intros; do 3 right; left; reflexivity).
  split; [apply Hin |].
  split; [reflexivity | split; [reflexivity |]].
  destruct (K _ _ H (Hin _ _ _ _ _ _) ltac:(reflexivity) ltac:(reflexivity)) as [_ [A [B C]]].
  split; [exact A | split; [exact B | exact C]].
Defined.

Lemma example_resolves (name : string) (cfg : pyval) :
  lookup name
    match example_presets with PDict d => d | _ => [] end = Some cfg ->
  resolves_to example_assumptions (Some name) name cfg.
Proof.
  intro H. eexists. eexists. split; [reflexivity |]. split; [reflexivity |].
  split; [reflexivity | exact H].
Qed.

Lemma select_calibration_first_match_wins_witness :
  exists cfg,
    select_calibration no_float_strings example_assumptions (Some "mixed")
    = Ok (0.08, PStr "mixed", cfg).
Proof.
  eexists.
  eapply (proj1 (select_calibration_first_match_wins no_float_strings
                   example_assumptions (Some "mixed") "mixed" _
                   (example_resolves "mixed" _ eq_refl))).
  - reflexivity.
  - reflexivity.
Defined.

(** The other encodings and the default preset, run. *)
Example select_calibration_examples :
  (exists cfg theta,
      select_calibration no_float_strings example_assumptions None
      = Ok (theta, PStr "baseline", cfg) /\ theta == 0.1) /\
  (exists cfg theta,
      select_calibration no_float_strings example_assumptions (Some "by_yield")
      = Ok (theta, PStr "by_yield", cfg) /\ theta == 0.1) /\
  (exists cfg theta,
      select_calibration no_float_strings example_assumptions (Some "by_balance")
      = Ok (theta, PStr "by_balance", cfg) /\ theta == 0.08) /\
  select_calibration no_float_strings example_assumptions (Some "no_encoding")
  = Raise (ValueError (missing_encoding_msg (PStr "no_encoding"))) /\
  select_calibration no_float_strings example_assumptions (Some "absent")
  = Raise (ValueError (unknown_preset_msg (PStr "absent")
             ["baseline"; "by_yield"; "by_balance"; "mixed"; "negative_ltv"; "no_encoding"])).
Proof.
  repeat split; try (eexists; eexists; split; [vm_compute; reflexivity | reflexivity]);
    vm_compute; reflexivity.
Qed.

(** C9: [theta_from_yield_ltv] rejects an LTV that is not positive (see
    [theta_from_yield_ltv_spec]), but [select_calibration] does not call
    it: on a preset with gross yield 0.06 and LTV -0.6 it returns the
    theta -0.1, whatever a string would convert to. *)
Theorem select_calibration_accepts_negative_ltv (float_of_string : string -> option Q) :
  theta_from_yield_ltv 0.06 (-0.6) = Raise (ValueError ltv_msg) /\
  exists theta cfg,
    select_calibration float_of_string example_assumptions (Some "negative_ltv")
    = Ok (theta, PStr "negative_ltv", cfg) /\
    theta == -0.1.
Proof.
  split; [reflexivity |].
  eexists. eexists. split; [vm_compute; reflexivity | reflexivity].
Qed.

(** * Further properties of the formulas *)










(** * Further properties of the grids *)

Lemma inclusive_arange_inv (start stop step : Q) (decimals : nat) (vals : list Q) :
  _inclusive_arange start stop step decimals = Ok vals ->
  0 < step /\
  exists l,
    l <> [] /\
    (forall e, In e l -> exists v, e = np_round decimals v) /\
    vals = np_unique l.
Proof.
  unfold _inclusive_arange. destruct (Qleb step 0) eqn:E; [discriminate |].
  apply Qleb_false in E. rewrite n_points_ok by lra. cbn [bind]. intro H.
  split; [exact E |].
  set (kept := map (np_round decimals) _) in H.
  set (vals3 := match kept with [] => [np_round decimals start] | _ :: _ => kept end) in H.
  assert (NE : vals3 <> []) by (unfold vals3; destruct kept; discriminate).
  assert (R : forall e, In e vals3 -> exists v, e = np_round decimals v).
  { intros e He. unfold vals3 in He. destruct kept as [| a t] eqn:Ek.
    - destruct He as [<- | []]. now exists start.
    - rewrite <- Ek in He. unfold kept in He. apply in_map_iff in He.
      destruct He as [v [<- _]]. now exists v. }
  injection H as <-. eexists. split; [| split; [| reflexivity]].
  - destruct (_ && _); [| exact NE]. destruct vals3; discriminate.
  - intros e He. destruct (_ && _); [| now apply R].
    apply in_app_or in He. destruct He as [He | [<- | []]]; [now apply R | now exists stop].
Qed.

(** X7: a grid returned by [_inclusive_arange] is strictly increasing, so
    it is sorted and holds no value twice. *)
Theorem inclusive_arange_strictly_increasing
    (start stop step : Q) (decimals : nat) (vals : list Q) :
  _inclusive_arange start stop step decimals = Ok vals ->
  StronglySorted Qlt vals.
Proof.
  intro H. apply inclusive_arange_inv in H. destruct H as [_ [l [_ [_ ->]]]].
  apply np_unique_sorted.
Qed.

Lemma inclusive_arange_strictly_increasing_witness :
  exists vals,
    _inclusive_arange 0 95 10 6 = Ok vals /\ StronglySorted Qlt vals.
Proof.
  eexists. split; [vm_compute; reflexivity |].
  apply (inclusive_arange_strictly_increasing 0 95 10 6). vm_compute. reflexivity.
Defined.












Lemma StronglySorted_map_seq (R : Q -> Q -> Prop) (f : nat -> Q) (n a : nat) :
  (forall i j, (a <= i)%nat -> (i < j)%nat -> (j < a + n)%nat -> R (f i) (f j)) ->
  StronglySorted R (map f (seq a n)).
Proof.
  revert a. induction n as [| n IH]; intros a H; cbn [seq map].
  - constructor.
  - constructor.
    + apply IH. intros i j Hi Hij Hj. apply H; lia.
    + apply Forall_forall. intros y Hy. apply in_map_iff in Hy.
      destruct Hy as [j [<- Hj]]. apply in_seq in Hj. apply H; lia.
Qed.

(** The values of [_frange] by index, before and after the clip. *)
Lemma frange_point_order (start stop step : Q) (i j : nat) :
  ~ step == 0 ->
  (i < j)%nat ->
  (j < Z.to_nat (Qfloor ((stop - start) / step + tol12) + 1))%nat ->
  (0 < step -> frange_point start stop step i < frange_point start stop step j) /\
  (step < 0 -> frange_point start stop step j < frange_point start stop step i).
Proof.
  intros NZ Hij Hj.
  apply inject_nat_below_floor in Hj.
  pose proof (inject_nat_lt i j Hij) as HI.
  pose proof (inject_nat_nonneg i) as Hi0.
  set (I := inject_Z (Z.of_nat i)) in *.
  set (J := inject_Z (Z.of_nat j)) in *.
  set (x := (stop - start) / step) in *.
  assert (Hx : x * step == stop - start) by (unfold x; field; exact NZ).
  unfold frange_point. fold I J.
  clearbody x I J.
  pose proof (py_min_max_order start stop) as Hlh.
  split; intro S.
  - assert (P1 : 0 <= step * (J - 1 - I)) by (apply Qmult_le_0_compat; lra).
    assert (P2 : 0 <= step * (x + tol12 - J)) by (apply Qmult_le_0_compat; lra).
    assert (P3 : 0 <= step * I) by (apply Qmult_le_0_compat; lra).
    destruct (py_min_max_cases start stop) as [[O [Em EM]] | [O [Em EM]]];
    destruct (np_clip_cases _ _ (start + step * I) Hlh) as [[Ci ->] | [[Ci ->] | [Ci ->]]];
    destruct (np_clip_cases _ _ (start + step * J) Hlh) as [[Cj ->] | [[Cj ->] | [Cj ->]]];
      lra.
  - assert (P1 : 0 <= (- step) * (J - 1 - I)) by (apply Qmult_le_0_compat; lra).
    assert (P2 : 0 <= (- step) * (x + tol12 - J)) by (apply Qmult_le_0_compat; lra).
    assert (P3 : 0 <= (- step) * I) by (apply Qmult_le_0_compat; lra).
    destruct (py_min_max_cases start stop) as [[O [Em EM]] | [O [Em EM]]];
    destruct (np_clip_cases _ _ (start + step * I) Hlh) as [[Ci ->] | [[Ci ->] | [Ci ->]]];
    destruct (np_clip_cases _ _ (start + step * J) Hlh) as [[Cj ->] | [[Cj ->] | [Cj ->]]];
      lra.
Qed.

(** X12: the grid of [_frange] runs in the direction of the step: it never
    decreases for a positive step and never increases for a negative
    one. *)
Theorem frange_follows_step_direction (start stop step : Q) (vals : list Q) :
  _frange start stop step = Ok vals ->
  (0 < step -> StronglySorted Qle vals) /\
  (step < 0 -> StronglySorted (fun a b => b <= a) vals).
Proof.
  intro H. apply frange_points in H. destruct H as [NZ ->].
  split; intro S; apply StronglySorted_map_seq; intros i j _ Hij Hj;
    apply Qlt_le_weak; now apply (frange_point_order start stop step i j NZ Hij Hj).
Qed.

Lemma frange_follows_step_direction_witness :
  exists up down,
    _frange 0 95 10 = Ok up /\ StronglySorted Qle up /\
    _frange 100 0 (-10) = Ok down /\ StronglySorted (fun a b => b <= a) down.
Proof.
  eexists. eexists. split; [vm_compute; reflexivity |].
  split; [apply (proj1 (frange_follows_step_direction 0 95 10 _ eq_refl)); reflexivity |].
  split; [vm_compute; reflexivity |].
  apply (proj2 (frange_follows_step_direction 100 0 (-10) _ eq_refl)). reflexivity.
Defined.

(** X13: every value of the grid of [_frange] lies between the smaller and
    the larger of [start] and [stop]. *)
Theorem frange_values_within_range (start stop step : Q) (vals : list Q) :
  _frange start stop step = Ok vals ->
  forall v, In v vals -> py_min start stop <= v <= py_max start stop.
Proof.
  intro H. apply frange_points in H. destruct H as [_ ->].
  intros v Hv. apply in_map_iff in Hv. destruct Hv as [i [<- _]].
  unfold frange_point. pose proof (py_min_max_order start stop) as Hlh.
  destruct (np_clip_cases _ _ (start + step * inject_Z (Z.of_nat i)) Hlh)
    as [[C ->] | [[C ->] | [C ->]]]; lra.
Qed.

Lemma frange_values_within_range_witness :
  py_min 0.5 1.2 <= 0.5 + 0.1 * inject_Z 3 <= py_max 0.5 1.2.
Proof.
  assert (E : exists vals, _frange 0.5 1.2 0.1 = Ok vals /\
                           In (0.5 + 0.1 * inject_Z 3) vals).
  { eexists. split; [vm_compute; reflexivity |].
    vm_compute. do 3 right. left. reflexivity. }
  destruct E as [vals [E Hin]].
  exact (frange_values_within_range 0.5 1.2 0.1 vals E _ Hin).
Defined.



(** * Further properties of the configuration readers *)

Section Readers.

Variable float_of_string : string -> option Q.

(** X16: a preset that carries [occupancy_range_override] replaces the
    occupancy range of the configuration, yet the configuration must still
    have its own [revenue_stress.occupancy_range]: without it the reader
    raises KeyError, override or not. *)
Theorem get_occupancy_grid_override (assumptions : pyval) (rs : list (string * pyval)) :
  getitem assumptions "revenue_stress" = Ok (PDict rs) ->
  (forall global d override,
      lookup "occupancy_range" rs = Some global ->
      lookup "occupancy_range_override" d = Some override ->
      get_occupancy_grid float_of_string assumptions (PDict d)
      = range_grid float_of_string override "start" "stop" "step") /\
  (forall global preset_cfg,
      lookup "occupancy_range" rs = Some global ->
      (forall d, preset_cfg = PDict d -> lookup "occupancy_range_override" d = None) ->
      get_occupancy_grid float_of_string assumptions preset_cfg
      = range_grid float_of_string global "start" "stop" "step") /\
  (forall preset_cfg,
      lookup "occupancy_range" rs = None ->
      get_occupancy_grid float_of_string assumptions preset_cfg
      = Raise (KeyError "occupancy_range")).
Proof.
  intro H. unfold get_occupancy_grid, range_grid. rewrite H. cbn [bind getitem].
  split; [| split].
  - intros global d override Hg Ho. rewrite Hg. cbn [bind].
    rewrite (has_key_lookup _ _ _ Ho), Ho. reflexivity.
  - intros global preset_cfg Hg Hno. rewrite Hg. cbn [bind].
    destruct preset_cfg as [q | s | | d]; try reflexivity.
    rewrite (has_key_none _ _ (Hno d eq_refl)). reflexivity.
  - intros preset_cfg Hg. rewrite Hg. reflexivity.
Qed.

End Readers.

Lemma get_occupancy_grid_override_witness :
  get_occupancy_grid no_float_strings example_assumptions
    (PDict [("rent_to_debt_ratio", PNum 0.1);
            ("occupancy_range_override",
             PDict [("start", PNum 0.8); ("stop", PNum 1); ("step", PNum 0.1)])])
  = range_grid no_float_strings
      (PDict [("start", PNum 0.8); ("stop", PNum 1); ("step", PNum 0.1)])
      "start" "stop" "step".
Proof.
  eapply (proj1 (get_occupancy_grid_override no_float_strings example_assumptions _ eq_refl));
    reflexivity.
Defined.

Section CalibrationMore.

Variable float_of_string : string -> option Q.

(** X17: when the requested name is not a key of [presets], the error
    carries that name and every preset name, in the order of the
    configuration; without a requested name and without [default_preset]
    the name in the error is None. *)
Theorem select_calibration_unknown_preset
    (assumptions calib : pyval) (presets : list (string * pyval)) :
  getitem assumptions "calibration" = Ok calib ->
  getitem calib "presets" = Ok (PDict presets) ->
  (forall name,
      lookup name presets = None ->
      select_calibration float_of_string assumptions (Some name)
      = Raise (ValueError
          [Lit "Unknown preset '"; Fmt (PStr name); Lit "'. Available: ";
           FmtKeys (map fst presets)])) /\
  (py_get calib "default_preset" = Ok PNone ->
   select_calibration float_of_string assumptions None
   = Raise (ValueError
       [Lit "Unknown preset '"; Fmt PNone; Lit "'. Available: ";
        FmtKeys (map fst presets)])).
Proof.
  intros H1 H2. unfold select_calibration. rewrite H1. cbn [bind]. rewrite H2. cbn [bind].
  split.
  - intros name Hn. cbn [py_in bind]. rewrite (has_key_none _ _ Hn). reflexivity.
  - intros Hd. rewrite Hd. reflexivity.
Qed.

(** X18: when [select_calibration] returns, the name it returns is a key
    of [presets], the configuration it returns is the body of that preset,
    unchanged, and the name is the requested one when one was given. *)
Theorem select_calibration_returns_a_preset
    (assumptions : pyval) (preset_name : option string) (theta : Q) (name cfg : pyval) :
  select_calibration float_of_string assumptions preset_name = Ok (theta, name, cfg) ->
  exists calib presets s,
    getitem assumptions "calibration" = Ok calib /\
    getitem calib "presets" = Ok (PDict presets) /\
    name = PStr s /\
    lookup s presets = Some cfg /\
    (forall requested, preset_name = Some requested -> s = requested).
Proof.
  unfold select_calibration. intro H.
  apply bind_ok in H. destruct H as [calib [E1 H]].
  apply bind_ok in H. destruct H as [presets [E2 H]].
  apply bind_ok in H. destruct H as [nm [E3 H]].
  apply bind_ok in H. destruct H as [known [E4 H]].
  destruct known; cbn [negb] in H.
  2: { destruct (py_keys presets); discriminate H. }
  apply bind_ok in H. destruct H as [body [E5 H]].
  assert (R : body = cfg /\ nm = name).
  { apply bind_ok in H. destruct H as [direct [_ H]].
    destruct direct.
    - apply bind_ok in H. destruct H as [t [_ H]]. injection H as _ <- <-. now split.
    - apply bind_ok in H. destruct H as [by_yield [_ H]].
      destruct by_yield.
      + do 3 (apply bind_ok in H; destruct H as [? [_ H]]).
        injection H as _ <- <-. now split.
      + apply bind_ok in H. destruct H as [by_balance [_ H]].
        destruct by_balance; [| discriminate H].
        do 3 (apply bind_ok in H; destruct H as [? [_ H]]).
        injection H as _ <- <-. now split. }
  destruct R as [-> ->].
  destruct presets as [q | t | | ps]; destruct name as [q' | s | | d'];
    try discriminate E5.
  exists calib, ps, s. cbn in E5. repeat split; trivial.
  - destruct (lookup s ps); [injection E5 as <-; reflexivity | discriminate E5].
  - intros requested ->. now injection E3.
Qed.

(** X19: on a preset with the yield and LTV encoding and a positive LTV,
    [select_calibration] returns the theta that [theta_from_yield_ltv]
    gives for the two numbers. *)
Theorem select_calibration_agrees_with_theta_from_yield_ltv
    (assumptions : pyval) (preset_name : option string) (name : string)
    (d : list (string * pyval)) (gross_yield ltv : Q) :
  resolves_to assumptions preset_name name (PDict d) ->
  lookup "rent_to_debt_ratio" d = None ->
  lookup "gross_yield" d = Some (PNum gross_yield) ->
  lookup "ltv" d = Some (PNum ltv) ->
  0 < ltv ->
  exists theta,
    theta_from_yield_ltv gross_yield ltv = Ok theta /\
    select_calibration float_of_string assumptions preset_name
    = Ok (theta, PStr name, PDict d).
Proof.
  intros H H0 Hy Hl P.
  exists (gross_yield / ltv). split.
  - now apply theta_from_yield_ltv_spec.
  - rewrite (select_calibration_resolved _ _ _ _ _ H).
    rewrite (has_key_none _ _ H0), (has_key_lookup _ _ _ Hy), (has_key_lookup _ _ _ Hl).
    cbn [andb]. rewrite (float_at_lookup _ _ _ _ Hy), (float_at_lookup _ _ _ _ Hl).
    cbn [py_float bind]. rewrite py_div_ok by lra. reflexivity.
Qed.

End CalibrationMore.

Lemma select_calibration_unknown_preset_witness :
  select_calibration no_float_strings example_assumptions (Some "absent")
  = Raise (ValueError
      [Lit "Unknown preset '"; Fmt (PStr "absent"); Lit "'. Available: ";
       FmtKeys ["baseline"; "by_yield"; "by_balance"; "mixed"; "negative_ltv";
                "no_encoding"]]).
Proof.
  eapply (proj1 (select_calibration_unknown_preset no_float_strings
                   example_assumptions _ _ eq_refl eq_refl)).
  reflexivity.
Defined.

Lemma select_calibration_returns_a_preset_witness :
  exists calib presets s,
    getitem example_assumptions "calibration" = Ok calib /\
    getitem calib "presets" = Ok (PDict presets) /\
    PStr "baseline" = PStr s /\
    lookup s presets = Some (PDict [("rent_to_debt_ratio", PNum 0.1)]) /\
    (forall requested, @None string = Some requested -> s = requested).
Proof.
  apply (select_calibration_returns_a_preset no_float_strings example_assumptions None 0.1).
  reflexivity.
Defined.

Lemma select_calibration_agrees_with_theta_from_yield_ltv_witness :
  exists theta,
    theta_from_yield_ltv 0.06 0.6 = Ok theta /\
    select_calibration no_float_strings example_assumptions (Some "by_yield")
    = Ok (theta, PStr "by_yield", PDict [("gross_yield", PNum 0.06); ("ltv", PNum 0.6)]).
Proof.
  apply (select_calibration_agrees_with_theta_from_yield_ltv no_float_strings
           example_assumptions (Some "by_yield") "by_yield" _ 0.06 0.6
           (example_resolves "by_yield" _ eq_refl)); reflexivity.
Defined.

(** * Further properties of the sweep *)

Lemma sweep_no_shocks (rent opex_ratio debt base_rate : Q) (occs : list Q) :
  sweep rent opex_ratio debt base_rate [] occs = Ok [].
Proof.
  unfold sweep. generalize (@nil row). induction occs as [| o t IH]; intro rows; cbn.
  - reflexivity.
  - apply IH.
Qed.

Section RunMore.

Variable float_of_string : string -> option Q.

(** X20: with the rent and the cost ratio read, a theta of zero makes the
    run raise ZeroDivisionError before any grid is built. *)
Theorem run_stress_test_zero_theta
    (assumptions preset_cfg : pyval) (base_rate theta rent opex_ratio : Q) :
  base_cashflow_of float_of_string assumptions rent opex_ratio ->
  theta == 0 ->
  run_stress_test float_of_string assumptions base_rate theta preset_cfg = Raise ZeroDivisionError.
Proof.
  intros Hbc Z.
  rewrite (run_stress_test_resolved _ _ _ _ _ _ _ Hbc), (py_div_zero _ _ Z). reflexivity.
Qed.

(** X24: with the configuration read and a theta that is not zero, an
    empty grid on either axis gives the empty table and no error, whatever
    the base rate. *)
Theorem run_stress_test_empty_grid
    (assumptions preset_cfg : pyval) (base_rate theta rent opex_ratio : Q)
    (shocks_bp occ_grid : list Q) :
  base_cashflow_of float_of_string assumptions rent opex_ratio ->
  ~ theta == 0 ->
  get_rate_shocks_bp float_of_string assumptions = Ok shocks_bp ->
  get_occupancy_grid float_of_string assumptions preset_cfg = Ok occ_grid ->
  shocks_bp = [] \/ occ_grid = [] ->
  run_stress_test float_of_string assumptions base_rate theta preset_cfg = Ok [].
Proof.
  intros Hbc Ht Hs Ho He.
  rewrite (run_stress_test_resolved _ _ _ _ _ _ _ Hbc).
  rewrite (py_div_ok _ _ Ht), Hs, Ho. cbn [bind].
  destruct He as [-> | ->]; [apply sweep_no_shocks | reflexivity].
Qed.

End RunMore.

Lemma run_stress_test_zero_theta_witness :
  run_stress_test no_float_strings example_assumptions 0.05 0 PNone = Raise ZeroDivisionError.
Proof.
  apply (run_stress_test_zero_theta no_float_strings example_assumptions PNone 0.05 0
           120000 0.35).
  - eexists. repeat split; reflexivity.
  - reflexivity.
Defined.

Lemma example_base_cashflow :
  base_cashflow_of no_float_strings example_assumptions 120000 0.35.
Proof. eexists. repeat split; reflexivity. Qed.

Lemma run_stress_test_empty_grid_witness :
  run_stress_test no_float_strings example_assumptions (-0.05) 0.1
    (PDict [("occupancy_range_override",
             PDict [("start", PNum 1); ("stop", PNum 0.5); ("step", PNum 0.1)])])
  = Ok [].
Proof.
  destruct (get_rate_shocks_bp no_float_strings example_assumptions) as [shocks | e] eqn:Hs;
    [| vm_compute in Hs; discriminate Hs].
  apply (run_stress_test_empty_grid no_float_strings example_assumptions _ (-0.05) 0.1
           120000 0.35 shocks [] example_base_cashflow ltac:(discriminate) Hs).
  - reflexivity.
  - now right.
Defined.

(** * plots.py: cell edges and the colour scale *)










(** * model.py: the grid generators *)



Lemma sorted_insert_perm (x : Q) (l : list Q) : Permutation (x :: l) (sorted_insert x l).
Proof.
  induction l as [| y t IH]; cbn; [reflexivity |].
  destruct (Qleb x y); [reflexivity |].
  rewrite perm_swap. now constructor.
Qed.

Lemma py_sorted_perm (l : list Q) : Permutation l (py_sorted l).
Proof.
  induction l as [| x t IH]; cbn; [constructor |].
  rewrite <- sorted_insert_perm. now constructor.
Qed.

Lemma sorted_insert_sorted (x : Q) (l : list Q) :
  StronglySorted Qle l -> StronglySorted Qle (sorted_insert x l).
Proof.
  induction 1 as [| y t Ht IH Hy]; cbn; [repeat constructor |].
  destruct (Qleb x y) eqn:E.
  - apply Qleb_true in E. constructor; [now constructor |].
    constructor; trivial. eapply Forall_impl; [| exact Hy]. intros z Hz. cbn in Hz. lra.
  - apply Qleb_false in E. constructor; trivial.
    apply (Permutation_Forall (sorted_insert_perm x t)). constructor; [lra | exact Hy].
Qed.

Lemma py_sorted_sorted (l : list Q) : StronglySorted Qle (py_sorted l).
Proof.
  induction l as [| x t IH]; cbn; [constructor | now apply sorted_insert_sorted].
Qed.

Lemma strictly_sorted_is_sorted (l : list Q) : StronglySorted Qlt l -> StronglySorted Qle l.
Proof.
  induction 1 as [| a t Ht IH Ha]; constructor; trivial.
  eapply Forall_impl; [| exact Ha]. intros b Hb. now apply Qlt_le_weak.
Qed.

(** X28: a legacy list in the configuration wins over the range keys,
    whether these are present or not: the rate shocks are the numbers of
    [shocks_bp], and the occupancy grid the values of
    [occupancy_multipliers], in ascending order, each as often as it was
    given. *)
Theorem legacy_lists_are_returned_sorted (assumptions : model_assumptions) :
  (forall ir shocks,
      interest_rate_stress assumptions = Some ir ->
      ir_shocks_bp ir = Some shocks ->
      exists vals,
        generate_rate_shocks_bp assumptions = Ok vals /\
        Permutation shocks vals /\ StronglySorted Qle vals) /\
  (forall rs multipliers,
      revenue_stress assumptions = Some rs ->
      rs_occupancy_multipliers rs = Some multipliers ->
      exists vals,
        generate_occupancy_grid assumptions = Ok vals /\
        Permutation (map snd multipliers) vals /\ StronglySorted Qle vals).
Proof.
  split.
  - intros ir shocks H1 H2. exists (py_sorted shocks).
    unfold generate_rate_shocks_bp. rewrite H1, H2.
    split; [reflexivity | split; [apply py_sorted_perm | apply py_sorted_sorted]].
  - intros rs multipliers H1 H2. exists (py_sorted (map snd multipliers)).
    unfold generate_occupancy_grid. rewrite H1, H2.
    split; [reflexivity | split; [apply py_sorted_perm | apply py_sorted_sorted]].
Qed.

Lemma legacy_lists_are_returned_sorted_witness :
  exists vals,
    generate_rate_shocks_bp
      (mk_model_assumptions
         (Some (mk_rate_stress (Some [50; -50; 0; 50]) (Some 0) (Some 100) (Some 10)))
         None)
    = Ok vals /\
    Permutation [50; -50; 0; 50] vals /\ StronglySorted Qle vals.
Proof.
  eapply (proj1 (legacy_lists_are_returned_sorted _)); reflexivity.
Defined.



(** X30: whatever the shape of the configuration, a grid that a generator
    returns is in ascending order; and a configuration with neither shape
    makes the rate generator raise KeyError for [start_bp] and the
    occupancy generator for [occupancy_range]. *)
Theorem generated_grids_ascend (assumptions : model_assumptions) :
  (forall vals, generate_rate_shocks_bp assumptions = Ok vals -> StronglySorted Qle vals) /\
  (forall vals, generate_occupancy_grid assumptions = Ok vals -> StronglySorted Qle vals) /\
  (interest_rate_stress assumptions = None ->
   generate_rate_shocks_bp assumptions = Raise (KeyError "start_bp")) /\
  (revenue_stress assumptions = None ->
   generate_occupancy_grid assumptions = Raise (KeyError "occupancy_range")).
Proof.
  split; [| split; [| split]].
  - intros vals H. unfold generate_rate_shocks_bp in H.
    destruct (ir_shocks_bp _) as [l |].
    + injection H as <-. apply py_sorted_sorted.
    + do 3 (apply bind_ok in H; destruct H as [? [_ H]]).
      apply strictly_sorted_is_sorted.
      apply inclusive_arange_inv in H. destruct H as [_ [l [_ [_ ->]]]].
      apply np_unique_sorted.
  - intros vals H. unfold generate_occupancy_grid in H.
    destruct (rs_occupancy_multipliers _) as [l |].
    + injection H as <-. apply py_sorted_sorted.
    + do 4 (apply bind_ok in H; destruct H as [? [_ H]]).
      apply strictly_sorted_is_sorted.
      apply inclusive_arange_inv in H. destruct H as [_ [l [_ [_ ->]]]].
      apply np_unique_sorted.
  - intro H. unfold generate_rate_shocks_bp. now rewrite H.
  - intro H. unfold generate_occupancy_grid. now rewrite H.
Qed.

Lemma generated_grids_ascend_witness :
  StronglySorted Qle (py_sorted [50; -50; 0]).
Proof.
  apply (proj1 (generated_grids_ascend
                  (mk_model_assumptions
                     (Some (mk_rate_stress (Some [50; -50; 0]) None None None)) None))).
  reflexivity.
Defined.

(** * The binary64 layer *)

Section Binary64Properties.

#[local] Open Scope float_scope.

(** ** dscr *)

Lemma binary_round_aux_sign (prec emax : Z) (s : bool) (m e : Z) (l : location) :
  match binary_round_aux prec emax s m e l with
  | S754_zero s' | S754_infinity s' | S754_finite s' _ _ => s' = s
  | S754_nan => True
  end.
Proof.
  unfold binary_round_aux.
  destruct (shr_fexp prec emax m e l) as [mrs' e'].
  destruct (shr_fexp prec emax _ e' loc_Exact) as [mrs'' e''].
  destruct (shr_m mrs''); trivial.
  destruct (Z.leb e'' (emax - prec)); reflexivity.
Qed.

(** A quotient by a number that is not [<= 0] is negative only if the
    numerator is, and positive only if the numerator is. *)
Lemma div_keeps_sign (n i : float) :
  (i <=? 0) = false ->
  ((n <? 0) = false -> (n / i <? 0) = false) /\
  ((0 <? n) = false -> (0 <? n / i) = false).
Proof.
  rewrite leb_spec, !ltb_spec, div_spec.
  change (Prim2SF 0) with (S754_zero false).
  unfold SF64div, SFdiv.
  destruct (Prim2SF n) as [sn | sn | | sn mn en];
    destruct (Prim2SF i) as [si | si | | si mi ei];
    try destruct sn; try destruct si; cbn; try (intros; split; intros; congruence).
  all: intros _;
    destruct (SFdiv_core_binary prec emax (Zpos mn) en (Zpos mi) ei) as [[mz ez] lz];
    match goal with
    | |- context [binary_round_aux ?p ?em ?s ?m ?e ?l] =>
        pose proof (binary_round_aux_sign p em s m e l) as S;
        destruct (binary_round_aux p em s m e l) as [s' | s' | | s' m' e']
    end; cbn in *; try subst s'; split; intros; cbn; congruence.
Qed.

(** C1: [dscr] raises its invalid-input error exactly when the interest
    cost [rate * debt], as computed in binary64, is [<= 0]; otherwise it
    returns the binary64 value of [revenue * (1 - opex_ratio) / (rate *
    debt)], which is negative only if the net operating income is, and
    positive only if it is: the sign is never flipped. *)
Theorem dscr_fails_iff_computed_interest_not_positive
    (revenue opex_ratio rate debt : float) :
  (Binary64.dscr revenue opex_ratio rate debt = Raise (ValueError dscr_msg)
   <-> (rate * debt <=? 0) = true) /\
  (Binary64.dscr revenue opex_ratio rate debt = Ok (revenue * (1 - opex_ratio) / (rate * debt))
   <-> (rate * debt <=? 0) = false) /\
  (forall v, Binary64.dscr revenue opex_ratio rate debt = Ok v ->
     ((Binary64.net_operating_income revenue opex_ratio <? 0) = false -> (v <? 0) = false) /\
     ((0 <? Binary64.net_operating_income revenue opex_ratio) = false -> (0 <? v) = false)).
Proof.
  unfold Binary64.dscr, Binary64.interest_cost, Binary64.net_operating_income.
  destruct (rate * debt <=? 0) eqn:G.
  - split; [split; trivial | split; [split; discriminate | discriminate]].
  - split; [split; discriminate | split; [split; trivial |]].
    intros v H. injection H as <-. now apply div_keeps_sign.
Qed.

Lemma dscr_fails_iff_computed_interest_not_positive_witness :
  Binary64.dscr 120000 0.35 0.05 1200000 = Ok (120000 * (1 - 0.35) / (0.05 * 1200000)) /\
  Binary64.dscr 1 0 1e-200 1e-200 = Raise (ValueError dscr_msg) /\
  (120000 * (1 - 0.35) / (0.05 * 1200000) <? 0) = false.
Proof.
  split; [| split].
  - apply (proj1 (proj2 (dscr_fails_iff_computed_interest_not_positive 120000 0.35 0.05 1200000))).
    reflexivity.
  - apply (proj1 (dscr_fails_iff_computed_interest_not_positive 1 0 1e-200 1e-200)).
    reflexivity.
  - apply (proj2 (proj2 (dscr_fails_iff_computed_interest_not_positive 120000 0.35 0.05 1200000))
             _ eq_refl).
    reflexivity.
Defined.

(** With a positive interest cost [dscr] returns infinity when the net
    operating income overflows. *)
Lemma dscr_returns_infinity :
  (0 <? 1e-3 * 1e-3) = true /\
  Binary64.dscr 1e308 (-9) 1e-3 1e-3 = Ok infinity.
Proof. split; reflexivity. Qed.

(** ** The break-even occupancy *)


(** ** The two break-even boundaries *)


(** ** The sweep *)

Lemma b64_cell_inv (rent opex_ratio debt base_rate occ shock : float)
    (rows rows' : list Binary64.row) :
  Binary64.cell rent opex_ratio debt base_rate occ rows shock = Ok rows' ->
  exists r, rows' = rows ++ [r] /\
            Binary64.row_of_cell rent opex_ratio debt base_rate (occ, shock) r.
Proof.
  unfold Binary64.cell. intro H.
  destruct (Binary64.dscr (rent * occ) opex_ratio (base_rate + shock / 10000) debt)
    as [d |] eqn:E; cbn in H; [| discriminate].
  injection H as <-. eexists. split; [reflexivity |].
  repeat split; cbn; trivial.
Qed.

Lemma b64_inner_loop_inv (rent opex_ratio debt base_rate occ : float) (shocks : list float) :
  forall rows rows',
    for_each shocks (Binary64.cell rent opex_ratio debt base_rate occ) rows = Ok rows' ->
    exists new, rows' = rows ++ new /\
                Forall2 (Binary64.row_of_cell rent opex_ratio debt base_rate)
                  (map (pair occ) shocks) new.
Proof.
  induction shocks as [| s t IH]; cbn; intros rows rows' H.
  - injection H as <-. exists []. split; [now rewrite app_nil_r | constructor].
  - destruct (Binary64.cell rent opex_ratio debt base_rate occ rows s) as [rows1 |] eqn:E;
      cbn in H; [| discriminate].
    apply b64_cell_inv in E. destruct E as [r [-> Hr]].
    apply IH in H. destruct H as [new [-> Hnew]].
    exists (r :: new). split; [now rewrite <- app_assoc | now constructor].
Qed.

Lemma b64_sweep_inv (rent opex_ratio debt base_rate : float)
    (shocks occs : list float) (rows : list Binary64.row) :
  Binary64.sweep rent opex_ratio debt base_rate shocks occs = Ok rows ->
  Forall2 (Binary64.row_of_cell rent opex_ratio debt base_rate) (list_prod occs shocks) rows.
Proof.
  unfold Binary64.sweep.
  assert (G : forall acc rows',
             for_each occs
               (fun rows occ =>
                  for_each shocks (Binary64.cell rent opex_ratio debt base_rate occ) rows)
               acc = Ok rows' ->
             exists new, rows' = acc ++ new /\
                         Forall2 (Binary64.row_of_cell rent opex_ratio debt base_rate)
                           (list_prod occs shocks) new).
  { induction occs as [| o t IH]; cbn; intros acc rows' H.
    - injection H as <-. exists []. split; [now rewrite app_nil_r | constructor].
    - destruct (for_each shocks _ acc) as [rows1 |] eqn:E; cbn in H; [| discriminate].
      apply b64_inner_loop_inv in E. destruct E as [new1 [-> H1]].
      apply IH in H. destruct H as [new2 [-> H2]].
      exists (new1 ++ new2). split; [now rewrite <- app_assoc | now apply Forall2_app]. }
  intro H. apply G in H. destruct H as [new [-> H]]. exact H.
Qed.







(** X22: every row of a run that succeeds holds what the program computes
    for its cell [(occ, shock)] of the product of the two grids: the
    occupancy multiplier [occ], the rate shock [shock], the interest rate
    [base_rate + shock / 10000], and the net cashflow and the DSCR of the
    revenue [rent * occ] at that rate with the debt [rent / theta]. *)
Theorem run_stress_test_rows_record_the_cells
    (cfg : Binary64.config) (base_rate theta : float) (rows : list Binary64.row) :
  Binary64.run_stress_test cfg base_rate theta = Ok rows ->
  exists shocks_bp occ_grid,
    Binary64._frange (Binary64.start_bp cfg) (Binary64.stop_bp cfg) (Binary64.step_bp cfg)
    = Ok shocks_bp /\
    Binary64._frange (Binary64.occupancy_start cfg) (Binary64.occupancy_stop cfg)
      (Binary64.occupancy_step cfg)
    = Ok occ_grid /\
    Forall2
      (Binary64.row_of_cell (Binary64.gross_annual_rent cfg) (Binary64.operating_cost_ratio cfg)
         (Binary64.gross_annual_rent cfg / theta) base_rate)
      (list_prod occ_grid shocks_bp) rows.
Proof.
  unfold Binary64.run_stress_test. intro H.
  apply bind_ok in H. destruct H as [debt [Ed H]].
  apply bind_ok in H. destruct H as [shocks [Es H]].
  apply bind_ok in H. destruct H as [occs [Eo H]].
  exists shocks, occs. split; [exact Es | split; [exact Eo |]].
  unfold Binary64.py_div in Ed.
  destruct (theta =? 0); [discriminate |]. injection Ed as <-.
  now apply b64_sweep_inv.
Qed.

Lemma run_stress_test_rows_record_the_cells_witness :
  exists rows,
    Binary64.run_stress_test (Binary64.mk_config 120000 0.35 0 100 50 0.5 1 0.5) 0.05 0.1
    = Ok rows /\
    Forall2 (Binary64.row_of_cell 120000 0.35 (120000 / 0.1) 0.05)
      (list_prod [0.5; 1] [0; 50; 100]) rows.
Proof.
  eexists. split; [vm_compute; reflexivity |].
  destruct (run_stress_test_rows_record_the_cells
              (Binary64.mk_config 120000 0.35 0 100 50 0.5 1 0.5) 0.05 0.1 _ eq_refl)
    as [shocks [occs [Es [Eo H]]]].
  vm_compute in Es, Eo. injection Es as <-. injection Eo as <-. exact H.
Defined.

(** ** When the sweep succeeds *)

Lemma b64_cell_ok_or_dscr_error (rent opex_ratio debt base_rate occ shock : float)
    (rows : list Binary64.row) :
  ((base_rate + shock / 10000) * debt <=? 0) = false /\
  (exists rows', Binary64.cell rent opex_ratio debt base_rate occ rows shock = Ok rows')
  \/
  ((base_rate + shock / 10000) * debt <=? 0) = true /\
  Binary64.cell rent opex_ratio debt base_rate occ rows shock = Raise (ValueError dscr_msg).
Proof.
  unfold Binary64.cell, Binary64.dscr, Binary64.interest_cost.
  destruct ((base_rate + shock / 10000) * debt <=? 0).
  - right. split; reflexivity.
  - left. split; [reflexivity |]. cbn. eauto.
Qed.

Lemma b64_inner_loop_ok (rent opex_ratio debt base_rate occ : float) (shocks : list float) :
  (forall shock, In shock shocks -> ((base_rate + shock / 10000) * debt <=? 0) = false) ->
  forall rows,
    exists rows',
      for_each shocks (Binary64.cell rent opex_ratio debt base_rate occ) rows = Ok rows'.
Proof.
  induction shocks as [| s t IH]; intros H rows; cbn [for_each].
  - eauto.
  - destruct (b64_cell_ok_or_dscr_error rent opex_ratio debt base_rate occ s rows)
      as [[_ [rows' E]] | [G _]].
    + rewrite E. cbn [bind]. apply IH. intros shock Hin. apply H. now right.
    + rewrite (H s (or_introl eq_refl)) in G. discriminate.
Qed.

Lemma b64_inner_loop_ok_or_dscr_error
    (rent opex_ratio debt base_rate occ : float) (shocks : list float) :
  forall rows,
    (exists rows',
        for_each shocks (Binary64.cell rent opex_ratio debt base_rate occ) rows = Ok rows')
    \/ for_each shocks (Binary64.cell rent opex_ratio debt base_rate occ) rows
       = Raise (ValueError dscr_msg).
Proof.
  induction shocks as [| s t IH]; intro rows; cbn [for_each].
  - left. eauto.
  - destruct (b64_cell_ok_or_dscr_error rent opex_ratio debt base_rate occ s rows)
      as [[_ [rows' E]] | [_ E]]; rewrite E; cbn [bind].
    + apply IH.
    + now right.
Qed.

(** X21: a run whose theta is not zero and whose grids are built returns a
    table exactly when the occupancy grid is empty or every rate shock
    gives an interest cost [(base_rate + shock / 10000) * debt] that, as
    computed in binary64, is not [<= 0]. *)
Theorem run_stress_test_succeeds_iff_interest_positive
    (cfg : Binary64.config) (base_rate theta : float) (shocks_bp occ_grid : list float) :
  (theta =? 0) = false ->
  Binary64._frange (Binary64.start_bp cfg) (Binary64.stop_bp cfg) (Binary64.step_bp cfg)
  = Ok shocks_bp ->
  Binary64._frange (Binary64.occupancy_start cfg) (Binary64.occupancy_stop cfg)
    (Binary64.occupancy_step cfg)
  = Ok occ_grid ->
  ((exists rows, Binary64.run_stress_test cfg base_rate theta = Ok rows)
   <-> occ_grid = [] \/
       forall shock, In shock shocks_bp ->
         ((base_rate + shock / 10000) * (Binary64.gross_annual_rent cfg / theta) <=? 0)
         = false).
Proof.
  intros Ht Hs Ho. unfold Binary64.run_stress_test, Binary64.py_div.
  rewrite Ht, Hs, Ho. cbn [bind]. unfold Binary64.sweep.
  set (rent := Binary64.gross_annual_rent cfg).
  set (opex := Binary64.operating_cost_ratio cfg).
  set (debt := rent / theta). split.
  - intros [rows H].
    destruct occ_grid as [| occ occs]; [now left | right].
    intros shock Hin.
    destruct ((base_rate + shock / 10000) * debt <=? 0) eqn:G; trivial. exfalso.
    rewrite (for_each_raises
               (fun rows occ => for_each shocks_bp (Binary64.cell rent opex debt base_rate occ) rows)
               (ValueError dscr_msg) occ) in H.
    + discriminate.
    + intros rows0 o. apply b64_inner_loop_ok_or_dscr_error.
    + intro rows0. apply for_each_raises with (bad := shock); trivial.
      * intros rows1 s.
        destruct (b64_cell_ok_or_dscr_error rent opex debt base_rate occ s rows1)
          as [[_ E] | [_ E]]; [now left | now right].
      * intro rows1.
        destruct (b64_cell_ok_or_dscr_error rent opex debt base_rate occ shock rows1)
          as [[G' _] | [_ E]]; [congruence | exact E].
    + now left.
  - intros [-> | H].
    + exists []. reflexivity.
    + generalize (@nil Binary64.row). clear Ho.
      induction occ_grid as [| o t IH]; intro acc; cbn [for_each].
      * eauto.
      * destruct (b64_inner_loop_ok rent opex debt base_rate o shocks_bp H acc) as [rows' E].
        rewrite E. cbn [bind]. apply IH.
Qed.

Lemma run_stress_test_succeeds_iff_interest_positive_witness :
  exists rows,
    Binary64.run_stress_test (Binary64.mk_config 120000 0.35 0 100 50 0.5 1 0.5) 0.05 0.1
    = Ok rows.
Proof.
  apply (proj2 (run_stress_test_succeeds_iff_interest_positive
                  (Binary64.mk_config 120000 0.35 0 100 50 0.5 1 0.5) 0.05 0.1
                  [0; 50; 100] [0.5; 1]
                  ltac:(reflexivity) ltac:(vm_compute; reflexivity)
                  ltac:(vm_compute; reflexivity))).
  right. intros shock [<- | [<- | [<- | []]]]; reflexivity.
Defined.

(** * Break-even, in exact arithmetic and in binary64 *)







End Binary64Properties.
